(** * The [harvester] command of kubefirst: cmd/harvester/command.go

    A shallow embedding of the three sub-commands [create], [destroy] and
    [root-credentials].  The body of each [RunE] closure is a computation in
    a writer monad over the calls it makes on its collaborators, so that the
    order of the calls can be stated and proved. *)

From stdpp Require Import base strings list gmap.
From Stdlib Require Import ZArith.

Local Open Scope string_scope.
Local Open Scope Z_scope.
Local Open Scope list_scope.

(** ** Go errors *)

(** The two error values [fmt.Errorf] builds: [*errors.errorString] when the
    format has no [%w] verb and [*fmt.wrapError] when it has one. *)
Inductive error : Type :=
| errorString (s : string)
| wrapError (msg : string) (err : error).

Definition Error (e : error) : string :=
  match e with
  | errorString s => s
  | wrapError msg _ => msg
  end.

Definition Unwrap (e : error) : option error :=
  match e with
  | errorString _ => None
  | wrapError _ err => Some err
  end.

(** [fmt.Errorf(prefix + "%w", err)]: every wrapping format of command.go
    ends in [%w], so the message is the prefix followed by [err.Error()]. *)
Definition Errorf_w (prefix : string) (err : error) : error :=
  wrapError (prefix +:+ Error err) err.

(** [fmt.Errorf(msg)] with no verb at all. *)
Definition Errorf (msg : string) : error := errorString msg.

(** ** Flags and commands (cobra / pflag) *)

Inductive FlagValue : Type :=
| FString (s : string)
| FBool (b : bool)
| FStringSlice (l : list string).

(** What [RunE] and the flag helpers see of a [*cobra.Command]. *)
Record Command : Type := {
  Use : string;
  Short : string;
  Long : string;
  TraverseChildren : bool;
  Flags : gmap string FlagValue;
  requiredFlags : list string
}.

(** [cmd.Flags().Set(name, value)], as the command line parser does it. *)
Definition setFlag (name : string) (v : FlagValue) (cmd : Command) : Command :=
  {| Use := Use cmd; Short := Short cmd; Long := Long cmd;
     TraverseChildren := TraverseChildren cmd;
     Flags := <[name := v]> (Flags cmd);
     requiredFlags := requiredFlags cmd |}.

(** The name pflag gives to the type of a flag. *)
Definition flagType (v : FlagValue) : string :=
  match v with
  | FString _ => "string"
  | FBool _ => "bool"
  | FStringSlice _ => "stringSlice"
  end.

(** [cmd.Flags().GetString(name)]. *)
Definition GetString (cmd : Command) (name : string) : string * option error :=
  match Flags cmd !! name with
  | Some (FString s) => (s, None)
  | Some v =>
      ("", Some (Errorf ("trying to get string value of flag of type " +:+ flagType v)))
  | None => ("", Some (Errorf ("flag accessed but not defined: " +:+ name)))
  end.

(** ** Data passed between the collaborators *)

(** The fields of [types.CliFlags] that command.go reads
    ([InstallCatalogApps], [GitProvider], [ClusterName]) and the two that the
    validation of the git protocol and of the halt phase is about. *)
Record CliFlags : Type := {
  CloudProvider : string;
  ClusterName : string;
  GitProvider : string;
  GitProtocol : string;
  InstallCatalogApps : string;
  StopAfter : string
}.

(** A catalog application, by its identifier. *)
Definition GitopsCatalogApp : Type := string.

(** ** Observable calls *)

(** The methods of the step reporter ([step.Factory]). *)
Inductive StepCall : Type :=
| DisplayLogHints (cloudProvider : string) (estimatedTimeMin : Z)
| NewProgressStep (name : string)
| FailCurrentStep (err : error)
| CompleteCurrentStep.

(** What the provisioner does with the reporter it was given and with the
    phases it owns. *)
Inductive ProvAction : Type :=
| PStep (c : StepCall)
| PRunPhase (name : string).

Inductive event : Type :=
| NewStepFactory
| Stepper (c : StepCall)
| CallGetFlags (cloudProvider : string)
| CallValidateCatalogApps (apps : string)
| CallValidateProvidedFlags (gitProvider : string)
| NewClusterClient
| NewProvisionWatcher (clusterName : string)
| NewProvisioner
| CallProvisionManagementCluster (cliFlags : CliFlags) (catalogApps : list GitopsCatalogApp)
| RunPhase (name : string).

Definition ofProvAction (a : ProvAction) : event :=
  match a with
  | PStep c => Stepper c
  | PRunPhase n => RunPhase n
  end.

(** ** The writer monad of calls *)

Definition M (A : Type) : Type := list event * A.

#[export] Instance M_ret : MRet M := λ A a, ([], a).
#[export] Instance M_bind : MBind M := λ A B k m,
  let '(t1, a) := m in
  let '(t2, b) := k a in
  (t1 ++ t2, b).

Definition emit (e : event) : M unit := ([e], tt).
Definition emits (es : list event) : M unit := (es, tt).

Definition trace {A} (m : M A) : list event := m.1.
Definition result {A} (m : M A) : A := m.2.

(** ** The collaborators of [create]

    Functions of other packages of the repository that command.go calls.
    The theorems about the control flow of [create] hold for every behaviour
    of these. *)
Record Collaborators : Type := {
  (** [utilities.GetFlags(cmd, cloudProvider)] *)
  getFlags : Command → string → CliFlags * option error;
  (** [catalog.ValidateCatalogApps(ctx, apps)] *)
  validateCatalogApps : string → bool * list GitopsCatalogApp * option error;
  (** [ValidateProvidedFlags(gitProvider)] *)
  validateProvidedFlags : string → option error;
  (** [Provisioner.ProvisionManagementCluster(ctx, cliFlags, catalogApps)]:
      what it does with its reporter and phases, and what it returns. *)
  provisionManagementCluster :
    CliFlags → list GitopsCatalogApp → list ProvAction * option error
}.

Module harvester.

(** Supported git providers *)
Definition supportedGitProviders : list string := ["github"; "gitlab"].
Definition supportedGitProtocolOverride : list string := ["https"; "ssh"].

(** The phases the [stop-after] flag names (its help text and the comment
    above its declaration). *)
Definition stopAfterPhases : list string := ["argocd"; "ingress"; "vcluster"; "vault"].

(** Modelled from the spec: [ValidateProvidedFlags] is called by [Create]
    but declared in another file of the package.  Section 4.1: the git
    provider is one of the supported set.  The text of the message is not
    fixed by the spec. *)
Definition ValidateProvidedFlags (gitProvider : string) : option error :=
  if decide (gitProvider ∈ supportedGitProviders) then None
  else Some (Errorf ("unsupported git provider: " +:+ gitProvider)).

(** The [RunE] closure of [Create]. *)
Definition Create_RunE (D : Collaborators) (cmd : Command) : M (option error) :=
  let cloudProvider := "harvester" in
  let estimatedTimeMin := 25 in
  emit NewStepFactory;;
  emit (Stepper (DisplayLogHints cloudProvider estimatedTimeMin));;
  emit (Stepper (NewProgressStep "Validate Configuration"));;
  emit (CallGetFlags cloudProvider);;
  let '(cliFlags, err) := getFlags D cmd cloudProvider in
  match err with
  | Some err =>
      let wrerr := Errorf_w "failed to get flags: " err in
      emit (Stepper (FailCurrentStep wrerr));;
      mret (Some wrerr)
  | None =>
      emit (CallValidateCatalogApps (InstallCatalogApps cliFlags));;
      let '(_, catalogApps, err) := validateCatalogApps D (InstallCatalogApps cliFlags) in
      match err with
      | Some err =>
          let wrerr := Errorf_w "validation of catalog apps failed: " err in
          emit (Stepper (FailCurrentStep wrerr));;
          mret (Some wrerr)
      | None =>
          emit (CallValidateProvidedFlags (GitProvider cliFlags));;
          match validateProvidedFlags D (GitProvider cliFlags) with
          | Some err =>
              let wrerr := Errorf_w "provided flags validation failed: " err in
              emit (Stepper (FailCurrentStep wrerr));;
              mret (Some wrerr)
          | None =>
              emit (Stepper CompleteCurrentStep);;
              emit NewClusterClient;;
              emit (NewProvisionWatcher (ClusterName cliFlags));;
              emit NewProvisioner;;
              emit (CallProvisionManagementCluster cliFlags catalogApps);;
              let '(acts, err) := provisionManagementCluster D cliFlags catalogApps in
              emits (ofProvAction <$> acts);;
              match err with
              | Some err =>
                  mret (Some (Errorf_w "failed to create harvester management cluster: " err))
              | None => mret None
              end
          end
      end
  end.

(** The flags [Create] registers, each with its default value. *)
Definition createFlags : list (string * FlagValue) :=
  [ ("kubeconfig-path", FString "$HOME/.kube/harvester.yaml");
    ("alerts-email", FString "");
    ("ci", FBool false);
    ("cloud-region", FString "on-premise");
    ("node-type", FString "on-premise");
    ("node-count", FString "1");
    ("cluster-name", FString "kubefirst");
    ("cluster-type", FString "mgmt");
    ("dns-provider", FString "cloudflare");
    ("domain-name", FString "dittmanfamily.com");
    ("git-provider", FString "github");
    ("git-protocol", FString "ssh");
    ("github-org", FString "holybitsllc");
    ("gitlab-group", FString "");
    ("gitops-template-url", FString "https://github.com/konstructio/gitops-template.git");
    ("gitops-template-branch", FString "");
    ("install-catalog-apps", FString "");
    ("install-kubefirst-pro", FBool true);
    ("lb-ip-range", FString "10.0.12.0/24");
    ("vclusters", FStringSlice ["dev"; "test"; "prod"]);
    ("install-istio", FBool true);
    ("istio-version", FString "latest");
    ("install-kgateway", FBool true);
    ("gitops-repo", FString "harvester-argo");
    ("unifi-host", FString "");
    ("unifi-user", FString "admin");
    ("unifi-password", FString "");
    ("stop-after", FString "") ].

Definition Create : Command :=
  {| Use := "create";
     Short := "create the kubefirst platform on Harvester";
     Long := "";
     TraverseChildren := true;
     Flags := list_to_map createFlags;
     requiredFlags := ["alerts-email"] |}.

(** The [RunE] closure of [Destroy]. *)
Definition Destroy_RunE (cmd : Command) : M (option error) :=
  mret (Some (Errorf "destroy command not yet implemented")).

Definition Destroy : Command :=
  {| Use := "destroy";
     Short := "destroy the kubefirst platform on Harvester";
     Long := "destroy the kubefirst platform running on Harvester and remove all resources";
     TraverseChildren := false;
     Flags := ∅;
     requiredFlags := [] |}.

(** The [RunE] closure of [RootCredentials]. *)
Definition RootCredentials_RunE (cmd : Command) : M (option error) :=
  mret (Some (Errorf "root-credentials command not yet implemented")).

Definition RootCredentials : Command :=
  {| Use := "root-credentials";
     Short := "retrieve root credentials for Harvester cluster";
     Long := "retrieve root authentication information for Harvester resources";
     TraverseChildren := false;
     Flags := ∅;
     requiredFlags := [] |}.

End harvester.

Module utilities.

Definition zeroCliFlags : CliFlags :=
  {| CloudProvider := ""; ClusterName := ""; GitProvider := "";
     GitProtocol := ""; InstallCatalogApps := ""; StopAfter := "" |}.

(** Read one string flag and go on, or give up on the first flag that
    cannot be read. *)
Definition withString (cmd : Command) (name : string)
    (k : string → CliFlags * option error) : CliFlags * option error :=
  match GetString cmd name with
  | (s, None) => k s
  | (_, Some err) =>
      (zeroCliFlags, Some (Errorf_w ("failed to get " +:+ name +:+ " flag: ") err))
  end.

(** Modelled from the spec: section 4.1, the git protocols the validation
    accepts.  (The list [supportedGitProtocolOverride] of command.go is
    private to its package.) *)
Definition gitProtocols : list string := ["https"; "ssh"].

(** Modelled from the spec: section 6, the names of the halt-phase
    checkpoints. *)
Definition haltPhases : list string := ["argocd"; "ingress"; "vcluster"; "vault"].

(** Modelled from the spec: [utilities.GetFlags] is called by [Create] but
    is declared in internal/utilities.  Sections 2 and 4.1: it gathers the
    provisioning inputs into one configuration value or fails with a
    validation error; the git protocol override is one of https and ssh, and
    the halt phase, if provided, is one of the checkpoint names.  (The checks
    of the git provider and of the catalog apps are the two later calls of
    [Create], which pass on nothing but the provider and the apps.)  A flag
    that was not given holds its default, so the protocol check is on the
    value the flag holds.  The texts of the messages are not fixed by the
    spec. *)
Definition GetFlags (cmd : Command) (cloudProvider : string) : CliFlags * option error :=
  withString cmd "cluster-name" (λ clusterName,
  withString cmd "git-provider" (λ gitProvider,
  withString cmd "git-protocol" (λ gitProtocol,
  withString cmd "install-catalog-apps" (λ installCatalogApps,
  withString cmd "stop-after" (λ stopAfter,
    if decide (gitProtocol ∈ gitProtocols) then
      if decide (stopAfter = "" ∨ stopAfter ∈ haltPhases) then
        ({| CloudProvider := cloudProvider; ClusterName := clusterName;
            GitProvider := gitProvider; GitProtocol := gitProtocol;
            InstallCatalogApps := installCatalogApps; StopAfter := stopAfter |},
         None)
      else (zeroCliFlags, Some (Errorf ("unknown stop-after phase: " +:+ stopAfter)))
    else (zeroCliFlags, Some (Errorf ("unsupported git protocol: " +:+ gitProtocol)))))))).

End utilities.

Module provision.

(** Modelled from the spec: the provisioner is declared in
    internal/provision.  Section 3: a phase has a unique name and a run
    function producing success or a failure with its cause. *)
Record Phase : Type := {
  phaseName : string;
  phaseRun : CliFlags → list GitopsCatalogApp → option error
}.

(** The error a failed phase is turned into: the cause, wrapped with the
    name of the phase. *)
Definition phaseFailed (name : string) (cause : error) : error :=
  Errorf_w ("phase " +:+ name +:+ " failed: ") cause.

(** Modelled from the spec: section 4.2, the transitions of the
    provisioner.  For each phase in registry order: begin its step and run
    it; on failure fail the step with the cause and return the wrapped
    cause, no further phase runs; on success complete the step, and stop
    with success when the phase is the configured halt phase. *)
Fixpoint runPhases (cliFlags : CliFlags) (catalogApps : list GitopsCatalogApp)
    (phases : list Phase) : list ProvAction * option error :=
  match phases with
  | [] => ([], None)
  | p :: rest =>
      let started := [PStep (NewProgressStep (phaseName p)); PRunPhase (phaseName p)] in
      match phaseRun p cliFlags catalogApps with
      | Some cause =>
          (started ++ [PStep (FailCurrentStep cause)],
           Some (phaseFailed (phaseName p) cause))
      | None =>
          if decide (phaseName p = StopAfter cliFlags) then
            (started ++ [PStep CompleteCurrentStep], None)
          else
            let '(acts, err) := runPhases cliFlags catalogApps rest in
            (started ++ PStep CompleteCurrentStep :: acts, err)
      end
  end.

(** Modelled from the spec: section 6, the invocation contract of
    [ProvisionManagementCluster], over the phase registry the provisioner
    was built with. *)
Definition ProvisionManagementCluster (registry : list Phase)
    (cliFlags : CliFlags) (catalogApps : list GitopsCatalogApp)
    : list ProvAction * option error :=
  runPhases cliFlags catalogApps registry.

(** The names of the phases that were run, in the order they ran. *)
Definition phasesRun (acts : list ProvAction) : list string :=
  omap (λ a, match a with PRunPhase n => Some n | PStep _ => None end) acts.

End provision.

(** ** The step reporter as a protocol *)

(** The reporter is idle ([None]) or has one active step.  A call is refused
    when it would begin a step while one is active, or complete or fail a
    step while none is. *)
Definition stepCall (active : option string) (c : StepCall) : option (option string) :=
  match c, active with
  | DisplayLogHints _ _, _ => Some active
  | NewProgressStep name, None => Some (Some name)
  | NewProgressStep _, Some _ => None
  | (FailCurrentStep _ | CompleteCurrentStep), Some _ => Some None
  | (FailCurrentStep _ | CompleteCurrentStep), None => None
  end.

Fixpoint stepCalls (active : option string) (cs : list StepCall) : option (option string) :=
  match cs with
  | [] => Some active
  | c :: cs' =>
      match stepCall active c with
      | Some active' => stepCalls active' cs'
      | None => None
      end
  end.

(** The calls a run makes on the reporter, in order. *)
Definition stepperCalls (tr : list event) : list StepCall :=
  omap (λ e, match e with Stepper c => Some c | _ => None end) tr.

(** Strict alternation: starting idle, no call is refused and the reporter is
    idle again at the end. *)
Definition alternates (cs : list StepCall) : Prop := stepCalls None cs = Some None.

(** ** [create] wired to the collaborators as the spec describes them *)

Definition specCollaborators (registry : list provision.Phase)
    (catalog : string → bool * list GitopsCatalogApp * option error) : Collaborators :=
  {| getFlags := utilities.GetFlags;
     validateCatalogApps := catalog;
     validateProvidedFlags := harvester.ValidateProvidedFlags;
     provisionManagementCluster := provision.ProvisionManagementCluster registry |}.

(** Events that construct or drive the provisioner. *)
Definition provisioning (e : event) : Prop :=
  match e with
  | NewClusterClient | NewProvisionWatcher _ | NewProvisioner
  | CallProvisionManagementCluster _ _ | RunPhase _ => True
  | _ => False
  end.

(** The configuration validation of [create] fails: one of its three checks
    returns an error. *)
Definition validationFails (D : Collaborators) (cmd : Command) : Prop :=
  let cliFlags := (getFlags D cmd "harvester").1 in
  is_Some (getFlags D cmd "harvester").2 ∨
  is_Some (validateCatalogApps D (InstallCatalogApps cliFlags)).2 ∨
  is_Some (validateProvidedFlags D (GitProvider cliFlags)).

(** ** The runs of [create] *)

(** What [create] does before it looks at any flag. *)
Definition preamble : list event :=
  [ NewStepFactory;
    Stepper (DisplayLogHints "harvester" 25);
    Stepper (NewProgressStep "Validate Configuration");
    CallGetFlags "harvester" ].

(** A run that ends in a failed step. *)
Definition failedRun (tr : list event) (wrerr : error) : M (option error) :=
  (tr ++ [Stepper (FailCurrentStep wrerr)], Some wrerr).

(** The four ways through the body of [create], one per [return]. *)
Inductive CreateRun (D : Collaborators) (cmd : Command) : M (option error) → Prop :=
| RunFlagsFailed cliFlags err :
    getFlags D cmd "harvester" = (cliFlags, Some err) →
    CreateRun D cmd (failedRun preamble (Errorf_w "failed to get flags: " err))
| RunCatalogFailed cliFlags ok apps err :
    getFlags D cmd "harvester" = (cliFlags, None) →
    validateCatalogApps D (InstallCatalogApps cliFlags) = (ok, apps, Some err) →
    CreateRun D cmd
      (failedRun (preamble ++ [CallValidateCatalogApps (InstallCatalogApps cliFlags)])
         (Errorf_w "validation of catalog apps failed: " err))
| RunProvidedFlagsFailed cliFlags ok apps err :
    getFlags D cmd "harvester" = (cliFlags, None) →
    validateCatalogApps D (InstallCatalogApps cliFlags) = (ok, apps, None) →
    validateProvidedFlags D (GitProvider cliFlags) = Some err →
    CreateRun D cmd
      (failedRun (preamble ++ [CallValidateCatalogApps (InstallCatalogApps cliFlags);
                               CallValidateProvidedFlags (GitProvider cliFlags)])
         (Errorf_w "provided flags validation failed: " err))
| RunProvisioned cliFlags ok apps acts err :
    getFlags D cmd "harvester" = (cliFlags, None) →
    validateCatalogApps D (InstallCatalogApps cliFlags) = (ok, apps, None) →
    validateProvidedFlags D (GitProvider cliFlags) = None →
    provisionManagementCluster D cliFlags apps = (acts, err) →
    CreateRun D cmd
      (preamble ++
         [ CallValidateCatalogApps (InstallCatalogApps cliFlags);
           CallValidateProvidedFlags (GitProvider cliFlags);
           Stepper CompleteCurrentStep;
           NewClusterClient;
           NewProvisionWatcher (ClusterName cliFlags);
           NewProvisioner;
           CallProvisionManagementCluster cliFlags apps ] ++
         (ofProvAction <$> acts),
       Errorf_w "failed to create harvester management cluster: " <$> err).

(** The phases before [k] all succeed and none is the halt phase: the
    provisioner reaches phase [k]. *)
Definition reaches (cliFlags : CliFlags) (catalogApps : list GitopsCatalogApp)
    (registry : list provision.Phase) (k : nat) : Prop :=
  ∀ j q, (j < k)%nat → registry !! j = Some q →
    provision.phaseRun q cliFlags catalogApps = None ∧
    provision.phaseName q ≠ StopAfter cliFlags.

(** The calls the provisioner makes on the reporter. *)
Definition provStepCalls (acts : list ProvAction) : list StepCall :=
  omap (λ a, match a with PStep c => Some c | PRunPhase _ => None end) acts.

(** ** Sample collaborators *)

(** A catalog that accepts every list of apps and installs none. *)
Definition emptyCatalog : string → bool * list GitopsCatalogApp * option error :=
  λ _, (true, [], None).

(** A provisioner that fails at once, with no phase. *)
Definition failingProvisioner : Collaborators :=
  {| getFlags := utilities.GetFlags;
     validateCatalogApps := emptyCatalog;
     validateProvidedFlags := harvester.ValidateProvidedFlags;
     provisionManagementCluster := λ _ _, ([], Some (Errorf "kubeconfig not found")) |}.

(** A phase with a fixed outcome. *)
Definition constPhase (name : string) (outcome : option error) : provision.Phase :=
  {| provision.phaseName := name; provision.phaseRun := λ _ _, outcome |}.

(** The four checkpoint phases, the third of which fails. *)
Definition sampleRegistry : list provision.Phase :=
  [ constPhase "argocd" None;
    constPhase "ingress" None;
    constPhase "vcluster" (Some (Errorf "platform-vcluster is not healthy"));
    constPhase "vault" None ].

(** ** Collaborators with fixed answers *)

(** The flags [create] resolves when none is given on the command line. *)
Definition sampleFlags : CliFlags :=
  {| CloudProvider := "harvester"; ClusterName := "kubefirst";
     GitProvider := "github"; GitProtocol := "ssh";
     InstallCatalogApps := ""; StopAfter := "" |}.

(** Collaborators that answer the same whatever they are asked. *)
Definition fixedCollaborators
    (flags : CliFlags * option error)
    (catalog : bool * list GitopsCatalogApp * option error)
    (provided : option error)
    (provisioned : list ProvAction * option error) : Collaborators :=
  {| getFlags := λ _ _, flags;
     validateCatalogApps := λ _, catalog;
     validateProvidedFlags := λ _, provided;
     provisionManagementCluster := λ _ _, provisioned |}.

(** The same collaborators, but for the boolean [ValidateCatalogApps]
    returns first. *)
Definition withCatalogFlag (b : bool) (D : Collaborators) : Collaborators :=
  {| getFlags := getFlags D;
     validateCatalogApps := λ apps,
       let '(_, catalogApps, err) := validateCatalogApps D apps in (b, catalogApps, err);
     validateProvidedFlags := validateProvidedFlags D;
     provisionManagementCluster := provisionManagementCluster D |}.

(** The context each of the four error returns of [create] puts before the
    cause. *)
Definition createContexts : list string :=
  [ "failed to get flags: ";
    "validation of catalog apps failed: ";
    "provided flags validation failed: ";
    "failed to create harvester management cluster: " ].

(** The events by which [create] builds and calls the provisioner. *)
Definition constructing (e : event) : Prop :=
  match e with
  | NewClusterClient | NewProvisionWatcher _ | NewProvisioner
  | CallProvisionManagementCluster _ _ => True
  | _ => False
  end.

(** ** Declaring flags (pflag) *)

(** [FlagSet.String], [FlagSet.Bool], [FlagSet.StringSlice]: declare a flag
    with its default; pflag panics ([None]) when the name is already
    declared. *)
Definition declareFlag (fs : option (gmap string FlagValue)) (d : string * FlagValue)
    : option (gmap string FlagValue) :=
  match fs with
  | Some m =>
      match m !! d.1 with
      | Some _ => None
      | None => Some (<[d.1 := d.2]> m)
      end
  | None => None
  end.

(** The declarations of a command, in the order of its source. *)
Definition declareFlags (ds : list (string * FlagValue)) : option (gmap string FlagValue) :=
  foldl declareFlag (Some ∅) ds.

(** [cmd.MarkFlagRequired(name)]: an error when the flag is not declared. *)
Definition MarkFlagRequired (m : gmap string FlagValue) (name : string) : option error :=
  match m !! name with
  | Some _ => None
  | None => Some (Errorf ("no such flag -" +:+ name))
  end.

(** * Properties *)

(** Case analysis on the way a run took. *)
Ltac create_cases R :=
  destruct R as [f e Hf|f ok a e Hf Hc|f ok a e Hf Hc Hp|f ok a acts e Hf Hc Hp Hr].

(** A closed list of strings does not hold a string that differs from each
    of its elements. *)
Ltac not_in_strings :=
  let H := fresh in
  vm_compute; intros H;
  repeat (apply elem_of_cons in H as [H|H]; [discriminate|]);
  by apply elem_of_nil in H.

Lemma Create_RunE_run D cmd : CreateRun D cmd (harvester.Create_RunE D cmd).
Proof.
  unfold harvester.Create_RunE.
  destruct (getFlags D cmd "harvester") as [cliFlags [err|]] eqn:Hflags.
  { eapply RunFlagsFailed; eauto. }
  destruct (validateCatalogApps D (InstallCatalogApps cliFlags))
    as [[ok apps] [err|]] eqn:Hcat.
  { eapply RunCatalogFailed; eauto. }
  destruct (validateProvidedFlags D (GitProvider cliFlags)) as [err|] eqn:Hprov.
  { eapply RunProvidedFlagsFailed; eauto. }
  destruct (provisionManagementCluster D cliFlags apps) as [acts err] eqn:Hrun.
  pose proof (RunProvisioned D cmd _ _ _ _ _ Hflags Hcat Hprov Hrun) as R.
  destruct err; cbn in *; rewrite ?app_nil_r; exact R.
Qed.

Lemma call_not_ofProvAction cliFlags apps (acts : list ProvAction) :
  CallProvisionManagementCluster cliFlags apps ∉ ofProvAction <$> acts.
Proof.
  intros (a & Ha & _)%list_elem_of_fmap. destruct a; discriminate.
Qed.

(** ** Sample runs *)

(** With the default flags the third phase of the sample registry fails and
    the fourth never runs. *)
Example run_default :
  harvester.Create_RunE (specCollaborators sampleRegistry emptyCatalog) harvester.Create =
  ( preamble ++
    [ CallValidateCatalogApps "";
      CallValidateProvidedFlags "github";
      Stepper CompleteCurrentStep;
      NewClusterClient;
      NewProvisionWatcher "kubefirst";
      NewProvisioner;
      CallProvisionManagementCluster
        {| CloudProvider := "harvester"; ClusterName := "kubefirst";
           GitProvider := "github"; GitProtocol := "ssh";
           InstallCatalogApps := ""; StopAfter := "" |} [];
      Stepper (NewProgressStep "argocd"); RunPhase "argocd"; Stepper CompleteCurrentStep;
      Stepper (NewProgressStep "ingress"); RunPhase "ingress"; Stepper CompleteCurrentStep;
      Stepper (NewProgressStep "vcluster"); RunPhase "vcluster";
      Stepper (FailCurrentStep (errorString "platform-vcluster is not healthy")) ],
    Some (wrapError
      "failed to create harvester management cluster: phase vcluster failed: platform-vcluster is not healthy"
      (wrapError "phase vcluster failed: platform-vcluster is not healthy"
         (errorString "platform-vcluster is not healthy"))) ).
Proof. vm_compute. reflexivity. Qed.

(** Stopping after ingress: the failing phase is never reached and the run
    succeeds. *)
Example run_stop_after_ingress :
  let r := harvester.Create_RunE (specCollaborators sampleRegistry emptyCatalog)
             (setFlag "stop-after" (FString "ingress") harvester.Create) in
  result r = None ∧
  omap (λ e, match e with RunPhase n => Some n | _ => None end) (trace r)
    = ["argocd"; "ingress"].
Proof. vm_compute. split; reflexivity. Qed.

(** A lookup of a flag [create] does not declare fails in [GetString]. *)
Example GetString_undefined :
  GetString harvester.Destroy "stop-after" =
    ("", Some (errorString "flag accessed but not defined: stop-after")).
Proof. reflexivity. Qed.

(** The only call of [ProvisionManagementCluster] in a run is the one
    [create] makes once all three checks have passed. *)
Lemma CreateRun_call D cmd r cliFlags apps :
  CreateRun D cmd r →
  CallProvisionManagementCluster cliFlags apps ∈ trace r →
  getFlags D cmd "harvester" = (cliFlags, None) ∧
  (∃ ok, validateCatalogApps D (InstallCatalogApps cliFlags) = (ok, apps, None)) ∧
  validateProvidedFlags D (GitProvider cliFlags) = None ∧
  result r =
    Errorf_w "failed to create harvester management cluster: "
      <$> (provisionManagementCluster D cliFlags apps).2.
Proof.
  unfold trace, result, failedRun, preamble.
  intros R; create_cases R; cbn; intros Hin.
  1-3: repeat (apply elem_of_cons in Hin as [Hin|Hin]; [discriminate|]);
       by apply elem_of_nil in Hin.
  do 11 (apply elem_of_cons in Hin as [Hin|Hin];
         [first [discriminate | injection Hin as -> ->] |]).
  - rewrite Hr. eauto 6.
  - by apply call_not_ofProvAction in Hin.
Qed.

(** C1: [create] returns nil exactly when it called
    [ProvisionManagementCluster] and that call returned nil; when the call
    returns an error, [create] returns that error wrapped with the message
    "failed to create harvester management cluster". *)
Theorem Create_nil_iff_provision_nil (D : Collaborators) (cmd : Command) :
  let r := harvester.Create_RunE D cmd in
  (result r = None ↔
     ∃ cliFlags apps,
       CallProvisionManagementCluster cliFlags apps ∈ trace r ∧
       (provisionManagementCluster D cliFlags apps).2 = None) ∧
  (∀ cliFlags apps err,
     CallProvisionManagementCluster cliFlags apps ∈ trace r →
     (provisionManagementCluster D cliFlags apps).2 = Some err →
     result r = Some (wrapError
       ("failed to create harvester management cluster: " +:+ Error err) err)).
Proof.
  intros r. pose proof (Create_RunE_run D cmd) as R. fold r in R.
  split.
  - split.
    + intros Hnil. revert Hnil.
      create_cases R; unfold result, failedRun; cbn; try discriminate.
      destruct e; [discriminate|]. intros _.
      exists f, a. rewrite Hr. split; [|done].
      unfold trace, preamble; cbn. set_solver.
    + intros (f & a & Hin & Hnil).
      destruct (CreateRun_call _ _ _ _ _ R Hin) as (_ & _ & _ & ->).
      by rewrite Hnil.
  - intros f a err Hin Herr.
    destruct (CreateRun_call _ _ _ _ _ R Hin) as (_ & _ & _ & ->).
    by rewrite Herr.
Qed.

Lemma Create_nil_iff_provision_nil_witness :
  result (harvester.Create_RunE failingProvisioner harvester.Create) =
    Some (wrapError
      "failed to create harvester management cluster: kubeconfig not found"
      (errorString "kubeconfig not found")).
Proof.
  refine (proj2 (Create_nil_iff_provision_nil failingProvisioner harvester.Create)
            (utilities.GetFlags harvester.Create "harvester").1 []
            (errorString "kubeconfig not found") _ _).
  - vm_compute. set_solver.
  - reflexivity.
Defined.

(** A run whose validation failed took one of the three failing ways. *)
Lemma CreateRun_validationFails D cmd r :
  CreateRun D cmd r → validationFails D cmd →
  ∃ tr prefix cause,
    r = failedRun (preamble ++ tr) (Errorf_w prefix cause) ∧
    Forall (λ e, ¬ provisioning e) tr ∧
    Forall (λ e, ∀ c, e ≠ Stepper c) tr.
Proof.
  intros R Hfails; create_cases R.
  - exists [], "failed to get flags: ", e. by rewrite app_nil_r.
  - eexists [_], _, e. split; [done|].
    split; repeat constructor; cbn; [tauto | discriminate].
  - eexists [_; _], _, e. split; [done|].
    split; repeat constructor; cbn; first [tauto | discriminate].
  - exfalso. unfold validationFails in Hfails.
    rewrite Hf in Hfails; cbn in Hfails. rewrite Hc, Hp in Hfails; cbn in Hfails.
    destruct Hfails as [[? [=]]|[[? [=]]|[? [=]]]].
Qed.

Lemma preamble_not_provisioning : Forall (λ e, ¬ provisioning e) preamble.
Proof. unfold preamble. repeat constructor; cbn; tauto. Qed.

Lemma failedRun_terminal D cmd r :
  CreateRun D cmd r → validationFails D cmd →
  is_Some (result r) ∧ Forall (λ e, ¬ provisioning e) (trace r).
Proof.
  intros R Hfails.
  destruct (CreateRun_validationFails _ _ _ R Hfails)
    as (tr & prefix & cause & -> & Hprov & _).
  unfold failedRun, result, trace; cbn [fst snd]. split; [by eexists|].
  rewrite !Forall_app. split_and!; [apply preamble_not_provisioning | done |].
  repeat constructor. cbn. tauto.
Qed.

(** C2: when flag resolution, catalog-app validation or git-provider
    validation fails, [create] returns a non-nil error and its run contains
    no construction of the cluster client, of the watcher or of the
    provisioner, no call of [ProvisionManagementCluster] and no phase. *)
Theorem Create_validation_failure_is_terminal (D : Collaborators) (cmd : Command) :
  validationFails D cmd →
  is_Some (result (harvester.Create_RunE D cmd)) ∧
  Forall (λ e, ¬ provisioning e) (trace (harvester.Create_RunE D cmd)).
Proof. apply failedRun_terminal, Create_RunE_run. Qed.

Lemma Create_validation_failure_is_terminal_witness :
  is_Some (result (harvester.Create_RunE failingProvisioner
                     (setFlag "git-provider" (FString "bitbucket") harvester.Create))) ∧
  Forall (λ e, ¬ provisioning e)
    (trace (harvester.Create_RunE failingProvisioner
              (setFlag "git-provider" (FString "bitbucket") harvester.Create))).
Proof.
  apply (Create_validation_failure_is_terminal failingProvisioner
           (setFlag "git-provider" (FString "bitbucket") harvester.Create)).
  right; right. vm_compute. eexists; reflexivity.
Defined.

(** C4: when the validation fails, the last thing [create] does is to call
    [FailCurrentStep], and the error it passes is the wrapped error it then
    returns; it is the only call it makes on the reporter after it began the
    step. *)
Theorem Create_fails_step_with_returned_error (D : Collaborators) (cmd : Command) :
  validationFails D cmd →
  ∃ tr wrerr,
    trace (harvester.Create_RunE D cmd) =
      preamble ++ tr ++ [Stepper (FailCurrentStep wrerr)] ∧
    result (harvester.Create_RunE D cmd) = Some wrerr ∧
    is_Some (Unwrap wrerr) ∧
    Forall (λ e, ∀ c, e ≠ Stepper c) tr.
Proof.
  intros Hfails.
  destruct (CreateRun_validationFails _ _ _ (Create_RunE_run D cmd) Hfails)
    as (tr & prefix & cause & -> & _ & Hsteps).
  exists tr, (Errorf_w prefix cause).
  unfold failedRun, result, trace; cbn [fst snd].
  rewrite <- app_assoc. split_and!; [done | done | by eexists | done].
Qed.

Lemma Create_fails_step_with_returned_error_witness :
  ∃ tr wrerr,
    trace (harvester.Create_RunE failingProvisioner
             (setFlag "git-protocol" (FString "ftp") harvester.Create)) =
      preamble ++ tr ++ [Stepper (FailCurrentStep wrerr)] ∧
    result (harvester.Create_RunE failingProvisioner
              (setFlag "git-protocol" (FString "ftp") harvester.Create)) = Some wrerr ∧
    is_Some (Unwrap wrerr) ∧
    Forall (λ e, ∀ c, e ≠ Stepper c) tr.
Proof.
  apply (Create_fails_step_with_returned_error failingProvisioner
           (setFlag "git-protocol" (FString "ftp") harvester.Create)).
  left. vm_compute. eexists; reflexivity.
Defined.

(** C9: [destroy] and [root-credentials] return the errors "destroy command
    not yet implemented" and "root-credentials command not yet implemented",
    whatever the command holds, and make no call at all. *)
Theorem Destroy_RootCredentials_not_implemented (cmd : Command) :
  harvester.Destroy_RunE cmd = ([], Some (errorString "destroy command not yet implemented")) ∧
  harvester.RootCredentials_RunE cmd =
    ([], Some (errorString "root-credentials command not yet implemented")).
Proof. split; reflexivity. Qed.

(** C10: every run of [create] starts by calling [DisplayLogHints] with
    "harvester" and 25 and by beginning the step "Validate Configuration";
    the retrieval of the flags and every validation come after. *)
Theorem Create_hints_and_step_first (D : Collaborators) (cmd : Command) :
  ∃ rest,
    trace (harvester.Create_RunE D cmd) =
      [ NewStepFactory;
        Stepper (DisplayLogHints "harvester" 25);
        Stepper (NewProgressStep "Validate Configuration");
        CallGetFlags "harvester" ] ++ rest ∧
    CallGetFlags "harvester" ∉ rest.
Proof.
  pose proof (Create_RunE_run D cmd) as R.
  create_cases R;
    unfold failedRun, trace, preamble; cbn [fst app]; eexists; (split; [reflexivity|]).
  1-3: repeat (apply not_elem_of_cons; split; [discriminate|]); apply not_elem_of_nil.
  rewrite !not_elem_of_cons. split_and!; try discriminate.
  intros (x & Hx & _)%list_elem_of_fmap. destruct x; discriminate.
Qed.

(** ** The provisioner *)

Section Provisioner.
Import provision.
Variables (cliFlags : CliFlags) (catalogApps : list GitopsCatalogApp).

Lemma reaches_tail p registry k :
  reaches cliFlags catalogApps (p :: registry) (S k) →
  phaseRun p cliFlags catalogApps = None ∧
  phaseName p ≠ StopAfter cliFlags ∧
  reaches cliFlags catalogApps registry k.
Proof.
  intros H. destruct (H 0%nat p) as [H1 H2]; [lia | done |].
  split_and!; [done | done |].
  intros j q Hj Hq. apply (H (S j) q); [lia | done].
Qed.

Lemma runPhases_failure registry : ∀ k p cause,
  registry !! k = Some p →
  phaseRun p cliFlags catalogApps = Some cause →
  reaches cliFlags catalogApps registry k →
  phasesRun (runPhases cliFlags catalogApps registry).1
    = phaseName <$> take (S k) registry ∧
  (runPhases cliFlags catalogApps registry).2
    = Some (phaseFailed (phaseName p) cause).
Proof.
  induction registry as [|q rest IH]; intros k p cause Hk Hrun Hreach.
  - by rewrite lookup_nil in Hk.
  - destruct k as [|k]; cbn in Hk.
    + injection Hk as ->. cbn. rewrite Hrun. cbn. by rewrite take_0.
    + apply reaches_tail in Hreach as (Hq & Hhalt & Hreach).
      specialize (IH k p cause Hk Hrun Hreach) as [IH1 IH2].
      cbn [runPhases]. rewrite Hq. case_decide; [done|].
      destruct (runPhases cliFlags catalogApps rest) as [acts err].
      cbn in *. by rewrite IH1, IH2.
Qed.

Lemma runPhases_alternates registry :
  alternates (provStepCalls (runPhases cliFlags catalogApps registry).1).
Proof.
  unfold alternates.
  induction registry as [|p rest IH]; [done|].
  cbn [runPhases].
  destruct (phaseRun p cliFlags catalogApps) as [cause|]; [done|].
  case_decide; [done|].
  destruct (runPhases cliFlags catalogApps rest) as [acts err]. exact IH.
Qed.

End Provisioner.

Lemma stepCalls_app cs1 cs2 active :
  stepCalls active (cs1 ++ cs2) = stepCalls active cs1 ≫= λ a, stepCalls a cs2.
Proof.
  revert active. induction cs1 as [|c cs1 IH]; intros active; [done|].
  cbn. destruct (stepCall active c); [apply IH | done].
Qed.

Lemma stepperCalls_ofProvAction acts :
  stepperCalls (ofProvAction <$> acts) = provStepCalls acts.
Proof.
  induction acts as [|[c|n] acts IH]; cbn; [done | by f_equal | done].
Qed.

(** [create] keeps the alternation of the reporter whenever the provisioner
    it calls does. *)
Lemma CreateRun_alternates D cmd r :
  CreateRun D cmd r →
  (∀ cliFlags apps,
     alternates (provStepCalls (provisionManagementCluster D cliFlags apps).1)) →
  alternates (stepperCalls (trace r)).
Proof.
  intros R Hprov.
  create_cases R; [done | done | done |].
  unfold alternates, stepperCalls, trace; cbn [fst].
  rewrite !omap_app, stepCalls_app. cbn.
  fold (stepperCalls (ofProvAction <$> acts)).
  rewrite stepperCalls_ofProvAction.
  specialize (Hprov f a). by rewrite Hr in Hprov.
Qed.

(** C3: when phase [k] of the registry is reached and fails, the phases that
    were run are exactly the phases 0 to [k], so none of the later phases
    runs, and the error [ProvisionManagementCluster] returns to [create]
    wraps the cause with the name of phase [k]. *)
Theorem failed_phase_stops_provisioning
    (registry : list provision.Phase) (cliFlags : CliFlags)
    (catalogApps : list GitopsCatalogApp)
    (k : nat) (p : provision.Phase) (cause : error) :
  registry !! k = Some p →
  provision.phaseRun p cliFlags catalogApps = Some cause →
  reaches cliFlags catalogApps registry k →
  let r := provision.ProvisionManagementCluster registry cliFlags catalogApps in
  provision.phasesRun r.1 = provision.phaseName <$> take (S k) registry ∧
  ∃ err, r.2 = Some err ∧
         Unwrap err = Some cause ∧
         Error err = ("phase " +:+ provision.phaseName p +:+ " failed: ") +:+ Error cause.
Proof.
  intros Hk Hrun Hreach r.
  destruct (runPhases_failure cliFlags catalogApps registry k p cause Hk Hrun Hreach)
    as [Hphases Herr].
  split; [exact Hphases|].
  eexists. split; [exact Herr|]. split; reflexivity.
Qed.

Lemma failed_phase_stops_provisioning_witness :
  let r := provision.ProvisionManagementCluster sampleRegistry
             (utilities.GetFlags harvester.Create "harvester").1 [] in
  provision.phasesRun r.1 = ["argocd"; "ingress"; "vcluster"] ∧
  ∃ err, r.2 = Some err ∧
         Unwrap err = Some (errorString "platform-vcluster is not healthy") ∧
         Error err = "phase vcluster failed: platform-vcluster is not healthy".
Proof.
  apply (failed_phase_stops_provisioning sampleRegistry
           (utilities.GetFlags harvester.Create "harvester").1 [] 2
           (constPhase "vcluster" (Some (Errorf "platform-vcluster is not healthy")))
           (errorString "platform-vcluster is not healthy")).
  - reflexivity.
  - reflexivity.
  - intros [|[|j]] q Hj Hq; [| |lia]; vm_compute in Hq; injection Hq as <-;
      (split; [reflexivity | vm_compute; discriminate]).
Defined.

(** C5: in every run of [create] the calls on the step reporter alternate:
    a step is begun only when none is active, it is completed or failed
    exactly once before the next one is begun, and none is active when the
    command returns.  This holds for every behaviour of the three validators
    and for every phase registry and phase outcome of the provisioner. *)
Theorem Create_stepper_calls_alternate
    (gf : Command → string → CliFlags * option error)
    (vca : string → bool * list GitopsCatalogApp * option error)
    (vpf : string → option error)
    (registry : list provision.Phase) (cmd : Command) :
  alternates (stepperCalls (trace (harvester.Create_RunE
    {| getFlags := gf;
       validateCatalogApps := vca;
       validateProvidedFlags := vpf;
       provisionManagementCluster := provision.ProvisionManagementCluster registry |}
    cmd))).
Proof.
  eapply CreateRun_alternates; [apply Create_RunE_run|].
  intros cliFlags apps. apply runPhases_alternates.
Qed.

(** ** The checks of the flags *)

Lemma withString_ok cmd name k cliFlags :
  utilities.withString cmd name k = (cliFlags, None) →
  ∃ s, Flags cmd !! name = Some (FString s) ∧ k s = (cliFlags, None).
Proof.
  unfold utilities.withString, GetString.
  destruct (Flags cmd !! name) as [[s|b|l]|]; try discriminate. eauto.
Qed.

(** The sets the spec names are the lists command.go declares. *)
Lemma gitProtocols_declared :
  utilities.gitProtocols = harvester.supportedGitProtocolOverride.
Proof. reflexivity. Qed.

Lemma haltPhases_declared : utilities.haltPhases = harvester.stopAfterPhases.
Proof. reflexivity. Qed.

(** What a successful [GetFlags] says about the flags it returns. *)
Lemma GetFlags_ok cmd cloudProvider cliFlags :
  utilities.GetFlags cmd cloudProvider = (cliFlags, None) →
  Flags cmd !! "git-provider" = Some (FString (GitProvider cliFlags)) ∧
  Flags cmd !! "git-protocol" = Some (FString (GitProtocol cliFlags)) ∧
  Flags cmd !! "stop-after" = Some (FString (StopAfter cliFlags)) ∧
  GitProtocol cliFlags ∈ utilities.gitProtocols ∧
  (StopAfter cliFlags = "" ∨ StopAfter cliFlags ∈ utilities.haltPhases).
Proof.
  unfold utilities.GetFlags. intros H.
  apply withString_ok in H as (clusterName & _ & H).
  apply withString_ok in H as (gitProvider & Hprovider & H).
  apply withString_ok in H as (gitProtocol & Hprotocol & H).
  apply withString_ok in H as (apps & _ & H).
  apply withString_ok in H as (stopAfter & Hstop & H).
  repeat case_decide; try discriminate.
  injection H as <-. cbn. done.
Qed.

Lemma GetFlags_fails_terminal vca vpf prov cmd :
  is_Some (utilities.GetFlags cmd "harvester").2 →
  let r := harvester.Create_RunE
    {| getFlags := utilities.GetFlags; validateCatalogApps := vca;
       validateProvidedFlags := vpf; provisionManagementCluster := prov |} cmd in
  is_Some (result r) ∧ Forall (λ e, ¬ provisioning e) (trace r).
Proof.
  intros Hfails r. eapply failedRun_terminal; [apply Create_RunE_run|]. by left.
Qed.

Lemma GetFlags_call vca vpf prov cmd cliFlags apps :
  CallProvisionManagementCluster cliFlags apps ∈ trace (harvester.Create_RunE
    {| getFlags := utilities.GetFlags; validateCatalogApps := vca;
       validateProvidedFlags := vpf; provisionManagementCluster := prov |} cmd) →
  utilities.GetFlags cmd "harvester" = (cliFlags, None).
Proof.
  intros Hin.
  destruct (CreateRun_call _ _ _ _ _ (Create_RunE_run _ cmd) Hin) as [Hflags _].
  exact Hflags.
Qed.

(** C6: when the [stop-after] flag holds a value that is not empty and is
    none of argocd, ingress, vcluster, vault, [create] returns an error and
    neither builds the provisioner nor runs a phase; and whenever [create]
    does call the provisioner, the halt phase it passes is empty or one of
    the four. *)
Theorem Create_rejects_unknown_stop_after
    (vca : string → bool * list GitopsCatalogApp * option error)
    (vpf : string → option error)
    (prov : CliFlags → list GitopsCatalogApp → list ProvAction * option error)
    (cmd : Command) :
  let r := harvester.Create_RunE
    {| getFlags := utilities.GetFlags; validateCatalogApps := vca;
       validateProvidedFlags := vpf; provisionManagementCluster := prov |} cmd in
  (∀ stopAfter,
     Flags cmd !! "stop-after" = Some (FString stopAfter) →
     stopAfter ≠ "" → stopAfter ∉ harvester.stopAfterPhases →
     is_Some (result r) ∧ Forall (λ e, ¬ provisioning e) (trace r)) ∧
  (∀ cliFlags apps,
     CallProvisionManagementCluster cliFlags apps ∈ trace r →
     StopAfter cliFlags = "" ∨ StopAfter cliFlags ∈ harvester.stopAfterPhases).
Proof.
  intros r. split.
  - intros stopAfter Hflag Hne Hnot. apply GetFlags_fails_terminal.
    destruct (utilities.GetFlags cmd "harvester") as [f [e|]] eqn:E; [by eexists|].
    apply GetFlags_ok in E as (_ & _ & Hstop & _ & Hok).
    rewrite haltPhases_declared in Hok.
    rewrite Hflag in Hstop. injection Hstop as ->. tauto.
  - intros f apps Hin. apply GetFlags_call in Hin.
    apply GetFlags_ok in Hin as (_ & _ & _ & _ & Hok).
    by rewrite haltPhases_declared in Hok.
Qed.

Lemma Create_rejects_unknown_stop_after_witness :
  let r := harvester.Create_RunE (specCollaborators sampleRegistry emptyCatalog)
             (setFlag "stop-after" (FString "install-vault") harvester.Create) in
  is_Some (result r) ∧ Forall (λ e, ¬ provisioning e) (trace r).
Proof.
  refine (proj1 (Create_rejects_unknown_stop_after emptyCatalog
                   harvester.ValidateProvidedFlags
                   (provision.ProvisionManagementCluster sampleRegistry)
                   (setFlag "stop-after" (FString "install-vault") harvester.Create))
            "install-vault" _ _ _).
  - reflexivity.
  - discriminate.
  - not_in_strings.
Defined.

(** C7: [ValidateProvidedFlags] accepts a git provider exactly when it is
    github or gitlab; for any other provider it returns an error, and
    [create], given flags with that provider, returns an error and neither
    builds the provisioner nor runs a phase. *)
Theorem ValidateProvidedFlags_accepts_supported (gitProvider : string) :
  (harvester.ValidateProvidedFlags gitProvider = None ↔
     gitProvider ∈ harvester.supportedGitProviders) ∧
  (gitProvider ∉ harvester.supportedGitProviders →
   is_Some (harvester.ValidateProvidedFlags gitProvider) ∧
   ∀ gf vca prov cmd,
     GitProvider (gf cmd "harvester").1 = gitProvider →
     let r := harvester.Create_RunE
       {| getFlags := gf; validateCatalogApps := vca;
          validateProvidedFlags := harvester.ValidateProvidedFlags;
          provisionManagementCluster := prov |} cmd in
     is_Some (result r) ∧ Forall (λ e, ¬ provisioning e) (trace r)).
Proof.
  assert (Hiff : harvester.ValidateProvidedFlags gitProvider = None ↔
                 gitProvider ∈ harvester.supportedGitProviders).
  { unfold harvester.ValidateProvidedFlags. case_decide; split; done || tauto. }
  split; [exact Hiff|]. intros Hnot.
  assert (Herr : is_Some (harvester.ValidateProvidedFlags gitProvider)).
  { destruct (harvester.ValidateProvidedFlags gitProvider); [by eexists | tauto]. }
  split; [exact Herr|].
  intros gf vca prov cmd Hg r. eapply failedRun_terminal; [apply Create_RunE_run|].
  right; right. cbn. by rewrite Hg.
Qed.

Lemma ValidateProvidedFlags_accepts_supported_witness :
  let r := harvester.Create_RunE (specCollaborators sampleRegistry emptyCatalog)
             (setFlag "git-provider" (FString "bitbucket") harvester.Create) in
  is_Some (result r) ∧ Forall (λ e, ¬ provisioning e) (trace r).
Proof.
  refine (proj2 (proj2 (ValidateProvidedFlags_accepts_supported "bitbucket") _)
            utilities.GetFlags emptyCatalog
            (provision.ProvisionManagementCluster sampleRegistry)
            (setFlag "git-provider" (FString "bitbucket") harvester.Create) _).
  - not_in_strings.
  - reflexivity.
Defined.

(** C8: when the [git-protocol] flag holds a value that is neither https nor
    ssh, [create] returns an error and neither builds the provisioner nor
    runs a phase; and whenever [create] does call the provisioner, the git
    protocol it passes is https or ssh. *)
Theorem Create_rejects_unsupported_git_protocol
    (vca : string → bool * list GitopsCatalogApp * option error)
    (vpf : string → option error)
    (prov : CliFlags → list GitopsCatalogApp → list ProvAction * option error)
    (cmd : Command) :
  let r := harvester.Create_RunE
    {| getFlags := utilities.GetFlags; validateCatalogApps := vca;
       validateProvidedFlags := vpf; provisionManagementCluster := prov |} cmd in
  (∀ gitProtocol,
     Flags cmd !! "git-protocol" = Some (FString gitProtocol) →
     gitProtocol ∉ harvester.supportedGitProtocolOverride →
     is_Some (result r) ∧ Forall (λ e, ¬ provisioning e) (trace r)) ∧
  (∀ cliFlags apps,
     CallProvisionManagementCluster cliFlags apps ∈ trace r →
     GitProtocol cliFlags ∈ harvester.supportedGitProtocolOverride).
Proof.
  intros r. split.
  - intros gitProtocol Hflag Hnot. apply GetFlags_fails_terminal.
    destruct (utilities.GetFlags cmd "harvester") as [f [e|]] eqn:E; [by eexists|].
    apply GetFlags_ok in E as (_ & Hprotocol & _ & Hok & _).
    rewrite gitProtocols_declared in Hok.
    rewrite Hflag in Hprotocol. injection Hprotocol as ->. done.
  - intros f apps Hin. apply GetFlags_call in Hin.
    apply GetFlags_ok in Hin as (_ & _ & _ & Hok & _).
    by rewrite gitProtocols_declared in Hok.
Qed.

Lemma Create_rejects_unsupported_git_protocol_witness :
  let r := harvester.Create_RunE (specCollaborators sampleRegistry emptyCatalog)
             (setFlag "git-protocol" (FString "ftp") harvester.Create) in
  is_Some (result r) ∧ Forall (λ e, ¬ provisioning e) (trace r).
Proof.
  refine (proj1 (Create_rejects_unsupported_git_protocol emptyCatalog
                   harvester.ValidateProvidedFlags
                   (provision.ProvisionManagementCluster sampleRegistry)
                   (setFlag "git-protocol" (FString "ftp") harvester.Create))
            "ftp" _ _).
  - reflexivity.
  - not_in_strings.
Defined.

(** * Further properties of [create] *)

(** Membership in a list of events that is known up to its tail. *)
Ltac in_events H :=
  repeat (apply elem_of_cons in H as [H|H]; [try discriminate|]);
  try (by apply elem_of_nil in H).

Lemma ofProvAction_event e (acts : list ProvAction) :
  e ∈ ofProvAction <$> acts → (∃ c, e = Stepper c) ∨ (∃ n, e = RunPhase n).
Proof.
  intros (a & -> & _)%list_elem_of_fmap. destruct a; cbn; eauto.
Qed.

Ltac not_provisioner_event H :=
  apply ofProvAction_event in H as [[? H]|[? H]]; discriminate H.

(** Show that an event is in a list of events that is known up to its
    tail. *)
Ltac event_here := rewrite !elem_of_cons; auto 20.

Lemma CreateRun_catalog_call D cmd r apps :
  CreateRun D cmd r →
  CallValidateCatalogApps apps ∈ trace r ↔
  ∃ cliFlags, getFlags D cmd "harvester" = (cliFlags, None) ∧
              apps = InstallCatalogApps cliFlags.
Proof.
  intros R; create_cases R; unfold trace, failedRun, preamble; cbn [fst app];
    rewrite Hf; (split; [intros H | intros (f0 & [= <-] & ->); event_here]);
    in_events H;
    first [ not_provisioner_event H | injection H as ->; eauto ].
Qed.

Lemma CreateRun_provided_call D cmd r gitProvider :
  CreateRun D cmd r →
  CallValidateProvidedFlags gitProvider ∈ trace r ↔
  ∃ cliFlags, getFlags D cmd "harvester" = (cliFlags, None) ∧
              (validateCatalogApps D (InstallCatalogApps cliFlags)).2 = None ∧
              gitProvider = GitProvider cliFlags.
Proof.
  intros R; create_cases R; unfold trace, failedRun, preamble; cbn [fst app];
    rewrite Hf;
    (split;
     [ intros H
     | intros (f0 & [= <-] & Hcat & ->);
       first [ rewrite Hc in Hcat; discriminate Hcat | event_here ] ]);
    in_events H;
    first [ not_provisioner_event H
          | injection H as ->; exists f; by rewrite Hc ].
Qed.

(** X1: the three checks run in order and stop at the first failure:
    [ValidateCatalogApps] is called exactly when [GetFlags] succeeded, on
    the app list of the flags it returned, and [ValidateProvidedFlags]
    exactly when both succeeded, on the git provider of those flags. *)
Theorem Create_checks_in_order (D : Collaborators) (cmd : Command) :
  let r := harvester.Create_RunE D cmd in
  (∀ apps,
     CallValidateCatalogApps apps ∈ trace r ↔
     ∃ cliFlags, getFlags D cmd "harvester" = (cliFlags, None) ∧
                 apps = InstallCatalogApps cliFlags) ∧
  (∀ gitProvider,
     CallValidateProvidedFlags gitProvider ∈ trace r ↔
     ∃ cliFlags, getFlags D cmd "harvester" = (cliFlags, None) ∧
                 (validateCatalogApps D (InstallCatalogApps cliFlags)).2 = None ∧
                 gitProvider = GitProvider cliFlags).
Proof.
  intros r. split; intros x.
  - apply CreateRun_catalog_call, Create_RunE_run.
  - apply CreateRun_provided_call, Create_RunE_run.
Qed.

Lemma CreateRun_provision_call D cmd r cliFlags apps :
  CreateRun D cmd r →
  getFlags D cmd "harvester" = (cliFlags, None) →
  (∃ ok, validateCatalogApps D (InstallCatalogApps cliFlags) = (ok, apps, None)) →
  validateProvidedFlags D (GitProvider cliFlags) = None →
  CallProvisionManagementCluster cliFlags apps ∈ trace r.
Proof.
  intros R Hflags (ok' & Hcat) Hprov.
  create_cases R; rewrite Hf in Hflags; injection Hflags as <-;
    try discriminate;
    rewrite Hc in Hcat; injection Hcat as <- <-; try discriminate.
  - rewrite Hp in Hprov. discriminate.
  - unfold trace, preamble; cbn [fst app]. event_here.
Qed.

Lemma CreateRun_watcher D cmd r clusterName :
  CreateRun D cmd r →
  NewProvisionWatcher clusterName ∈ trace r →
  clusterName = ClusterName (getFlags D cmd "harvester").1.
Proof.
  intros R; create_cases R; unfold trace, failedRun, preamble; cbn [fst app];
    rewrite Hf; intros H; in_events H;
    first [ not_provisioner_event H | by injection H as -> ].
Qed.

(** X2: [create] calls [ProvisionManagementCluster] exactly when all three
    checks pass, and then with the flags [GetFlags] returned and the apps
    [ValidateCatalogApps] returned; the watcher it builds is for the cluster
    name of those flags. *)
Theorem Create_provisions_iff_checks_pass (D : Collaborators) (cmd : Command) :
  let r := harvester.Create_RunE D cmd in
  (∀ cliFlags apps,
     CallProvisionManagementCluster cliFlags apps ∈ trace r ↔
     getFlags D cmd "harvester" = (cliFlags, None) ∧
     (∃ ok, validateCatalogApps D (InstallCatalogApps cliFlags) = (ok, apps, None)) ∧
     validateProvidedFlags D (GitProvider cliFlags) = None) ∧
  (∀ clusterName,
     NewProvisionWatcher clusterName ∈ trace r →
     clusterName = ClusterName (getFlags D cmd "harvester").1).
Proof.
  intros r. pose proof (Create_RunE_run D cmd) as R. fold r in R. split.
  - intros cliFlags apps. split.
    + intros Hin.
      destruct (CreateRun_call _ _ _ _ _ R Hin) as (Hflags & Hcat & Hprov & _).
      done.
    + intros (Hflags & Hcat & Hprov).
      by apply (CreateRun_provision_call D cmd).
  - intros clusterName. by apply CreateRun_watcher.
Qed.

Lemma Create_provisions_iff_checks_pass_witness :
  CallProvisionManagementCluster sampleFlags ["metallb"] ∈
    trace (harvester.Create_RunE
             (fixedCollaborators (sampleFlags, None) (false, ["metallb"], None) None ([], None))
             harvester.Create).
Proof.
  apply (proj1 (Create_provisions_iff_checks_pass
    (fixedCollaborators (sampleFlags, None) (false, ["metallb"], None) None ([], None))
    harvester.Create) sampleFlags ["metallb"]).
  split; [reflexivity|]. split; [exists false; reflexivity | reflexivity].
Defined.

(** The split of a run at one of its events. *)
Ltac split_run H He :=
  repeat
    (match type of H with
     | _ :: _ = ?pre ++ _ :: _ =>
         destruct pre as [|? pre]; cbn in H;
         [ injection H as <- _; first [ by destruct He | reflexivity ]
         | injection H as <- H ]
     | [] = ?pre ++ _ :: _ => by destruct pre
     end).

Lemma CreateRun_built_after_step D cmd r pre ev post :
  CreateRun D cmd r →
  trace r = pre ++ ev :: post →
  constructing ev →
  stepperCalls pre =
    [ DisplayLogHints "harvester" 25;
      NewProgressStep "Validate Configuration";
      CompleteCurrentStep ].
Proof.
  intros R; create_cases R; unfold trace, failedRun, preamble; cbn [fst app];
    intros H He; split_run H He.
  assert (Hin : ev ∈ ofProvAction <$> acts)
    by (rewrite H; apply elem_of_app; right; apply list_elem_of_here).
  apply ofProvAction_event in Hin as [[c ->]|[n ->]]; destruct He.
Qed.

(** X3: whenever [create] builds the cluster client, the watcher or the
    provisioner, or calls [ProvisionManagementCluster], the calls it has made
    on the reporter so far are [DisplayLogHints], the begin of "Validate
    Configuration" and its completion: nothing is built while that step is
    open, and nothing before it. *)
Theorem Create_builds_after_validation_step
    (D : Collaborators) (cmd : Command) (pre post : list event) (e : event) :
  trace (harvester.Create_RunE D cmd) = pre ++ e :: post →
  constructing e →
  stepperCalls pre =
    [ DisplayLogHints "harvester" 25;
      NewProgressStep "Validate Configuration";
      CompleteCurrentStep ].
Proof.
  intros Hsplit He.
  eapply CreateRun_built_after_step; [apply Create_RunE_run | exact Hsplit | exact He].
Qed.

Lemma Create_builds_after_validation_step_witness :
  stepperCalls (preamble ++ [CallValidateCatalogApps ""; CallValidateProvidedFlags "github";
                             Stepper CompleteCurrentStep]) =
    [ DisplayLogHints "harvester" 25;
      NewProgressStep "Validate Configuration";
      CompleteCurrentStep ].
Proof.
  apply (Create_builds_after_validation_step
           (fixedCollaborators (sampleFlags, None) (true, [], None) None
              ([PStep (NewProgressStep "argocd"); PRunPhase "argocd";
                PStep CompleteCurrentStep], None))
           harvester.Create
           (preamble ++ [CallValidateCatalogApps ""; CallValidateProvidedFlags "github";
                         Stepper CompleteCurrentStep])
           [ NewProvisionWatcher "kubefirst"; NewProvisioner;
             CallProvisionManagementCluster sampleFlags [];
             Stepper (NewProgressStep "argocd"); RunPhase "argocd";
             Stepper CompleteCurrentStep ]
           NewClusterClient).
  - reflexivity.
  - exact I.
Defined.

(** X4: the error [create] returns for a failed check is the error of that
    check wrapped with the context of the check, and the first failing check
    decides: a failure of [GetFlags] is reported whatever the later checks
    would say, and a failure of the catalog validation whatever the provider
    validation would say. *)
Theorem Create_error_wraps_failed_check (D : Collaborators) (cmd : Command) :
  let r := harvester.Create_RunE D cmd in
  (∀ cliFlags err,
     getFlags D cmd "harvester" = (cliFlags, Some err) →
     result r = Some (wrapError ("failed to get flags: " +:+ Error err) err)) ∧
  (∀ cliFlags ok apps err,
     getFlags D cmd "harvester" = (cliFlags, None) →
     validateCatalogApps D (InstallCatalogApps cliFlags) = (ok, apps, Some err) →
     result r =
       Some (wrapError ("validation of catalog apps failed: " +:+ Error err) err)) ∧
  (∀ cliFlags err,
     getFlags D cmd "harvester" = (cliFlags, None) →
     (validateCatalogApps D (InstallCatalogApps cliFlags)).2 = None →
     validateProvidedFlags D (GitProvider cliFlags) = Some err →
     result r =
       Some (wrapError ("provided flags validation failed: " +:+ Error err) err)).
Proof.
  intros r. pose proof (Create_RunE_run D cmd) as R. fold r in R.
  split_and!.
  - intros cliFlags err Hflags.
    create_cases R; rewrite Hf in Hflags; try discriminate Hflags;
      by injection Hflags as <- <-.
  - intros cliFlags ok' apps err Hflags Hcat.
    create_cases R; rewrite Hf in Hflags; try discriminate Hflags;
      injection Hflags as <-; rewrite Hc in Hcat; try discriminate Hcat;
      by injection Hcat as <- <- <-.
  - intros cliFlags err Hflags Hcat Hprov.
    create_cases R; rewrite Hf in Hflags; try discriminate Hflags;
      injection Hflags as <-; rewrite Hc in Hcat; try discriminate Hcat;
      rewrite Hp in Hprov; try discriminate Hprov;
      by injection Hprov as <-.
Qed.

Lemma Create_error_wraps_failed_check_witness :
  result (harvester.Create_RunE
            (fixedCollaborators (sampleFlags, None)
               (false, [], Some (errorString "unknown app: foo"))
               (Some (errorString "no git token")) ([], None))
            harvester.Create) =
    Some (wrapError "validation of catalog apps failed: unknown app: foo"
            (errorString "unknown app: foo")).
Proof.
  apply (proj1 (proj2 (Create_error_wraps_failed_check
    (fixedCollaborators (sampleFlags, None)
       (false, [], Some (errorString "unknown app: foo"))
       (Some (errorString "no git token")) ([], None))
    harvester.Create)) sampleFlags false [] (errorString "unknown app: foo"));
    reflexivity.
Defined.

Lemma prefix_append (s t : string) : String.prefix s (s +:+ t) = true.
Proof.
  induction s as [|c s IH]; [by destruct t|]. simpl.
  destruct (Ascii.ascii_dec c c); [exact IH | congruence].
Qed.

(** The failed stage of a run that returns an error, with its cause. *)
Lemma CreateRun_error D cmd r wrerr :
  CreateRun D cmd r → result r = Some wrerr →
  let cliFlags := (getFlags D cmd "harvester").1 in
  let flagsErr := (getFlags D cmd "harvester").2 in
  let catalogErr := (validateCatalogApps D (InstallCatalogApps cliFlags)).2 in
  let providedErr := validateProvidedFlags D (GitProvider cliFlags) in
  ∃ cause,
    (flagsErr = Some cause ∧ wrerr = Errorf_w "failed to get flags: " cause) ∨
    (flagsErr = None ∧ catalogErr = Some cause ∧
     wrerr = Errorf_w "validation of catalog apps failed: " cause) ∨
    (flagsErr = None ∧ catalogErr = None ∧ providedErr = Some cause ∧
     wrerr = Errorf_w "provided flags validation failed: " cause) ∨
    (flagsErr = None ∧ catalogErr = None ∧ providedErr = None ∧
     wrerr = Errorf_w "failed to create harvester management cluster: " cause).
Proof.
  intros R; create_cases R; unfold result, failedRun; cbn [snd];
    intros He; rewrite Hf; cbn [fst snd]; rewrite ?Hc, ?Hp; cbn [snd].
  - injection He as <-. eauto 10.
  - injection He as <-. eauto 10.
  - injection He as <-. eauto 10.
  - destruct e as [cause|]; [|discriminate]. injection He as <-. eauto 10.
Qed.

(** X5: every error [create] returns is a cause wrapped with one of the four
    contexts, and the context at the head of its message tells the stage that
    failed: the flags, the catalog apps, the provided flags, or, when all
    checks passed, the provisioning. *)
Theorem Create_error_context_tells_stage
    (D : Collaborators) (cmd : Command) (e : error) :
  result (harvester.Create_RunE D cmd) = Some e →
  let cliFlags := (getFlags D cmd "harvester").1 in
  let flagsErr := (getFlags D cmd "harvester").2 in
  let catalogErr := (validateCatalogApps D (InstallCatalogApps cliFlags)).2 in
  let providedErr := validateProvidedFlags D (GitProvider cliFlags) in
  (∃ ctx cause, ctx ∈ createContexts ∧ e = wrapError (ctx +:+ Error cause) cause) ∧
  (String.prefix "failed to get flags: " (Error e) = true ↔ is_Some flagsErr) ∧
  (String.prefix "validation of catalog apps failed: " (Error e) = true ↔
     flagsErr = None ∧ is_Some catalogErr) ∧
  (String.prefix "provided flags validation failed: " (Error e) = true ↔
     flagsErr = None ∧ catalogErr = None ∧ is_Some providedErr) ∧
  (String.prefix "failed to create harvester management cluster: " (Error e) = true ↔
     flagsErr = None ∧ catalogErr = None ∧ providedErr = None).
Proof.
  intros He.
  destruct (CreateRun_error D cmd _ e (Create_RunE_run D cmd) He) as (cause & Hstage).
  cbv zeta.
  destruct Hstage as [(-> & ->)|[(-> & -> & ->)|[(-> & -> & -> & ->)|(-> & -> & -> & ->)]]].
  all: split; [eexists _, cause; split; [|reflexivity]; unfold createContexts; event_here|].
  all: cbn; split_and!; split;
    first [ discriminate
          | done
          | by intros [? [=]]
          | by intros (_ & [? [=]])
          | by intros (_ & _ & [? [=]])
          | by intros (? & ?)
          | by intros (? & ? & ?)
          | intros _; apply prefix_append ].
Qed.

Lemma Create_error_context_tells_stage_witness :
  String.prefix "provided flags validation failed: "
    "provided flags validation failed: no git token" = true ↔
  (None : option error) = None ∧ (None : option error) = None ∧
  is_Some (Some (errorString "no git token")).
Proof.
  apply (Create_error_context_tells_stage
    (fixedCollaborators (sampleFlags, None) (true, [], None)
       (Some (errorString "no git token")) ([], None))
    harvester.Create
    (wrapError "provided flags validation failed: no git token"
       (errorString "no git token"))).
  reflexivity.
Defined.

(** X6: once the checks have passed, [create] itself makes no further call
    on the reporter: the reporter calls of the run are [DisplayLogHints], the
    begin and the completion of "Validate Configuration", and then those the
    provisioner makes.  So when [ProvisionManagementCluster] returns an
    error, [create] returns it wrapped but does not call [FailCurrentStep]. *)
Theorem Create_leaves_reporting_to_provisioner
    (D : Collaborators) (cmd : Command)
    (cliFlags : CliFlags) (apps : list GitopsCatalogApp) :
  CallProvisionManagementCluster cliFlags apps ∈ trace (harvester.Create_RunE D cmd) →
  stepperCalls (trace (harvester.Create_RunE D cmd)) =
    [ DisplayLogHints "harvester" 25;
      NewProgressStep "Validate Configuration";
      CompleteCurrentStep ] ++
    provStepCalls (provisionManagementCluster D cliFlags apps).1.
Proof.
  intros Hin. pose proof (Create_RunE_run D cmd) as R.
  destruct (CreateRun_call _ _ _ _ _ R Hin) as (Hflags & (ok' & Hcat) & Hprov & _).
  create_cases R; rewrite Hf in Hflags; try discriminate Hflags;
    injection Hflags as <-; rewrite Hc in Hcat; try discriminate Hcat;
    injection Hcat as <- <-; try (rewrite Hp in Hprov; discriminate Hprov).
  rewrite Hr. unfold trace, stepperCalls, preamble; cbn [fst].
  rewrite !omap_app. cbn. do 3 f_equal. apply stepperCalls_ofProvAction.
Qed.

Lemma Create_leaves_reporting_to_provisioner_witness :
  stepperCalls (trace (harvester.Create_RunE
    (fixedCollaborators (sampleFlags, None) (true, [], None) None
       ([], Some (errorString "kubeconfig not found")))
    harvester.Create)) =
    [ DisplayLogHints "harvester" 25;
      NewProgressStep "Validate Configuration";
      CompleteCurrentStep ].
Proof.
  apply (Create_leaves_reporting_to_provisioner
    (fixedCollaborators (sampleFlags, None) (true, [], None) None
       ([], Some (errorString "kubeconfig not found")))
    harvester.Create sampleFlags []).
  unfold trace; cbn. event_here.
Defined.

(** X7: [create] discards the boolean [ValidateCatalogApps] returns first:
    its calls and its result are the same whatever that boolean is. *)
Theorem Create_ignores_catalog_flag (D : Collaborators) (cmd : Command) (b : bool) :
  harvester.Create_RunE (withCatalogFlag b D) cmd = harvester.Create_RunE D cmd.
Proof.
  unfold harvester.Create_RunE, withCatalogFlag; cbn [getFlags validateCatalogApps
    validateProvidedFlags provisionManagementCluster].
  destruct (getFlags D cmd "harvester") as [cliFlags [err|]]; [reflexivity|].
  destruct (validateCatalogApps D (InstallCatalogApps cliFlags)) as [[ok apps] [err|]];
    reflexivity.
Qed.

(** ** The flags of [create] *)

Lemma createFlags_NoDup : NoDup harvester.createFlags.*1.
Proof. apply (bool_decide_unpack _). by vm_compute. Qed.

(** X8: [Create] declares no flag twice, so none of its declarations
    panics; each declared flag then holds its declared default and no other
    flag exists; and the flag it marks required is declared by the time it is
    marked (after the first two declarations), so the error of
    [MarkFlagRequired] that [Create] discards is nil. *)
Theorem Create_declares_each_flag_once :
  declareFlags harvester.createFlags = Some (Flags harvester.Create) ∧
  (∀ name v,
     Flags harvester.Create !! name = Some v ↔ (name, v) ∈ harvester.createFlags) ∧
  (∃ declared,
     declareFlags (take 2 harvester.createFlags) = Some declared ∧
     Forall (λ name, MarkFlagRequired declared name = None)
       (requiredFlags harvester.Create)).
Proof.
  split_and!.
  - by vm_compute.
  - intros name v. split.
    + apply elem_of_list_to_map_2.
    + apply elem_of_list_to_map_1, createFlags_NoDup.
  - eexists. split; [by vm_compute|]. by repeat constructor.
Qed.
